(** * yotredash: the diagnostic bridge of [library_messages.c]

    The C file redirects the diagnostics of ALSA and JACK to one logging
    callback supplied by the host.  This development embeds its four
    functions and the global [rust_log], and proves what the bridge
    forwards.

    Conventions of the embedding.
    - A [const char *] that is only read is modelled by the bytes of the
      array it points to; the text a C reader sees in it is [c_str], the
      bytes before the first NUL.
    - The local array [msg] is an explicit 1024-cell array whose initial
      contents are arbitrary (the previous contents of the stack).
    - A function pointer is [NULL] or the address of a function.
    - A C function is a computation in the monad [M]: it threads the
      globals, records the effects that leave the file in a trace, and
      may crash (call through a null pointer, write past an array). *)

From Stdlib Require Import String Strings.Byte DecimalString.
From Stdlib Require Import ZArith List Bool Lia.
Import ListNotations.
Open Scope Z_scope.

(** ** C data *)

Definition NUL : byte := x00.

Definition is_nul (b : byte) : bool := Byte.eqb b NUL.

(** The text of a C string: the bytes before the first NUL. *)
Fixpoint c_str (a : list byte) : list byte :=
  match a with
  | [] => []
  | b :: a' => if is_nul b then [] else b :: c_str a'
  end.

(** An array holds a C string when a NUL occurs in it. *)
Definition nul_terminated (a : list byte) : Prop := In NUL a.

(** Conversions of the integer constants at the calls. *)
Definition to_uint8 (z : Z) : Z := z mod 256.
Definition to_size_t (z : Z) : Z := z mod 2 ^ 64.

(** An array of [n] cells that was never written: cell [i] holds whatever
    the stack held there. *)
Definition uninit (stack : nat -> byte) (n : Z) : list byte :=
  map stack (seq 0 (Z.to_nat n)).

(** Storing [bs] at the start of the array [a].  Writing past the end of
    the array is undefined behaviour: [None]. *)
Definition store_bytes (a bs : list byte) : option (list byte) :=
  if (length bs <=? length a)%nat
  then Some (bs ++ skipn (length bs) a)
  else None.

(** The variadic arguments of a formatted-output call. *)
Inductive va_arg : Type :=
  | VaInt (z : Z)
  | VaStr (s : list byte).

Definition va_list : Type := list va_arg.

(** ** The globals and the handler slots *)

(** [typedef void ( *rust_callback)(uint8_t, const char*, const char* )] *)
Inductive rust_callback : Type :=
  | NULL
  | FnPtr (addr : positive).

(** What the error-handler slot of ALSA may hold in this program. *)
Inductive snd_lib_error_handler_t : Type :=
  | snd_lib_error_default
  | alsa_error_handler_ptr.

(** What the info and error slots of JACK may hold in this program. *)
Inductive jack_message_fn : Type :=
  | jack_default_fn
  | jack_info_handler_ptr
  | jack_error_handler_ptr.

Record bridge : Type := mkBridge {
  rust_log : rust_callback;
  snd_lib_error : snd_lib_error_handler_t;
  jack_info_callback : jack_message_fn;
  jack_error_callback : jack_message_fn
}.

(** The state at program start: [rust_log] is zero-initialised and the
    libraries still have their own handlers. *)
Definition bridge_init : bridge :=
  mkBridge NULL snd_lib_error_default jack_default_fn jack_default_fn.

(** ** Effects *)

Inductive event : Type :=
  | EvStoreCallback (cb : rust_callback)
  | EvSetAlsaHandler (h : snd_lib_error_handler_t)
  | EvSetJackInfo (h : jack_message_fn)
  | EvSetJackError (h : jack_message_fn)
  | EvLog (callee : positive) (severity : Z) (tag : string) (msg : list byte).

Inductive fault : Type :=
  | NullCall
  | BufferOverflow.

Inductive result (A : Type) : Type :=
  | Done (a : A) (st : bridge) (tr : list event)
  | Crash (why : fault) (tr : list event).

Arguments Done {A} a st tr.
Arguments Crash {A} why tr.

Definition M (A : Type) : Type := bridge -> result A.

Definition ret {A} (a : A) : M A := fun st => Done a st [].

Definition bind {A B} (m : M A) (k : A -> M B) : M B :=
  fun st =>
    match m st with
    | Done a st1 tr1 =>
        match k a st1 with
        | Done b st2 tr2 => Done b st2 (tr1 ++ tr2)
        | Crash why tr2 => Crash why (tr1 ++ tr2)
        end
    | Crash why tr1 => Crash why tr1
    end.

Notation "x <- m ;; k" := (bind m (fun x => k))
  (at level 61, m at next level, right associativity).
Notation "m ;; k" := (bind m (fun _ => k))
  (at level 61, right associativity).

Definition emit (e : event) : M unit := fun st => Done tt st [e].

Definition crash {A} (why : fault) : M A := fun _ => Crash why [].

Definition get_rust_log : M rust_callback := fun st => Done (rust_log st) st [].

Definition modify (f : bridge -> bridge) : M unit := fun st => Done tt (f st) [].

Definition lift_store {A} (o : option A) : M A :=
  match o with
  | Some a => ret a
  | None => crash BufferOverflow
  end.

Definition trace_of {A} (r : result A) : list event :=
  match r with
  | Done _ _ tr => tr
  | Crash _ tr => tr
  end.

(** The calls of the logging callback in a trace, as the triples the
    callback reads: severity, tag, and the text at the message pointer. *)
Definition forwarded_of (e : event) : list (Z * string * list byte) :=
  match e with
  | EvLog _ sev tag msg => [(sev, tag, c_str msg)]
  | _ => []
  end.

Definition forwarded (tr : list event) : list (Z * string * list byte) :=
  flat_map forwarded_of tr.

(** ** The external functions *)

(** A call through the pointer [rust_log]. *)
Definition call_rust_log (severity : Z) (tag : string) (msg : list byte) : M unit :=
  cb <- get_rust_log ;;
  match cb with
  | NULL => crash NullCall
  | FnPtr f => emit (EvLog f (to_uint8 severity) tag msg)
  end.

Definition set_snd_lib_error (h : snd_lib_error_handler_t) (st : bridge) : bridge :=
  mkBridge (rust_log st) h (jack_info_callback st) (jack_error_callback st).

Definition set_jack_info_callback (h : jack_message_fn) (st : bridge) : bridge :=
  mkBridge (rust_log st) (snd_lib_error st) h (jack_error_callback st).

Definition set_jack_error_callback (h : jack_message_fn) (st : bridge) : bridge :=
  mkBridge (rust_log st) (snd_lib_error st) (jack_info_callback st) h.

Definition set_rust_log (cb : rust_callback) (st : bridge) : bridge :=
  mkBridge cb (snd_lib_error st) (jack_info_callback st) (jack_error_callback st).

(** The assignment [rust_log = callback]. *)
Definition assign_rust_log (cb : rust_callback) : M unit :=
  modify (set_rust_log cb) ;; emit (EvStoreCallback cb).

(** ALSA: [snd_lib_error_set_handler] fills the error-handler slot. *)
Definition snd_lib_error_set_handler (h : snd_lib_error_handler_t) : M unit :=
  modify (set_snd_lib_error h) ;; emit (EvSetAlsaHandler h).

(** JACK: [jack_set_info_function] and [jack_set_error_function]. *)
Definition jack_set_info_function (h : jack_message_fn) : M unit :=
  modify (set_jack_info_callback h) ;; emit (EvSetJackInfo h).

Definition jack_set_error_function (h : jack_message_fn) : M unit :=
  modify (set_jack_error_callback h) ;; emit (EvSetJackError h).

(** ** The bridge *)

Definition alsa_tag : string := "yotredash::alsa".
Definition jack_tag : string := "yotredash::jack".

Section Bridge.

(** The formatting engine of the C library: the complete output of a
    format string applied to its arguments, before any bound applies. *)
Variable vformat : list byte -> va_list -> list byte.

(** [vsnprintf(s, n, fmt, ap)] (C99 7.19.6.5 and 7.19.6.12): with
    [n = 0] nothing is written; otherwise the output beyond the
    [n-1]st byte is discarded and a NUL is written after the bytes
    kept.  The value returned is the length of the complete output. *)
Definition vsnprintf (s : list byte) (n : Z) (fmt : list byte) (ap : va_list)
  : option (list byte * Z) :=
  let out := vformat fmt ap in
  if n =? 0 then Some (s, Z.of_nat (length out))
  else
    match store_bytes s (firstn (Z.to_nat (n - 1)) out ++ [NUL]) with
    | Some s' => Some (s', Z.of_nat (length out))
    | None => None
    end.

Definition alsa_error_handler (stack : nat -> byte)
    (file : list byte) (line : Z) (function : list byte) (err : Z)
    (fmt : list byte) (ap : va_list) : M unit :=
  let len := 1024 in
  let msg := uninit stack len in
  r <- lift_store (vsnprintf msg (to_size_t (len - 1)) fmt ap) ;;
  call_rust_log 3 alsa_tag (fst r).

Definition jack_info_handler (msg : list byte) : M unit :=
  call_rust_log 2 jack_tag msg.

Definition jack_error_handler (msg : list byte) : M unit :=
  call_rust_log 3 jack_tag msg.

Definition set_message_handler (callback : rust_callback) : M unit :=
  assign_rust_log callback ;;
  snd_lib_error_set_handler alsa_error_handler_ptr ;;
  jack_set_info_function jack_info_handler_ptr ;;
  jack_set_error_function jack_error_handler_ptr.

End Bridge.

(** ** Sequences of calls into the bridge *)

Inductive call : Type :=
  | CallSetMessageHandler (callback : rust_callback)
  | CallAlsaErrorHandler (stack : nat -> byte)
      (file : list byte) (line : Z) (function : list byte) (err : Z)
      (fmt : list byte) (ap : va_list)
  | CallJackInfoHandler (msg : list byte)
  | CallJackErrorHandler (msg : list byte).

Definition is_adapter_call (c : call) : bool :=
  match c with
  | CallSetMessageHandler _ => false
  | _ => true
  end.

(** A registration that passes a function, not the null pointer. *)
Definition registers_function (c : call) : bool :=
  match c with
  | CallSetMessageHandler NULL => false
  | _ => true
  end.

Section Calls.

Variable vformat : list byte -> va_list -> list byte.

Definition run_call (c : call) : M unit :=
  match c with
  | CallSetMessageHandler cb => set_message_handler cb
  | CallAlsaErrorHandler stack file line function err fmt ap =>
      alsa_error_handler vformat stack file line function err fmt ap
  | CallJackInfoHandler msg => jack_info_handler msg
  | CallJackErrorHandler msg => jack_error_handler msg
  end.

Fixpoint run_calls (cs : list call) : M unit :=
  match cs with
  | [] => ret tt
  | c :: cs' => run_call c ;; run_calls cs'
  end.

End Calls.

(** The callback that [rust_log] holds at each adapter call of a
    sequence that starts with [rust_log = cb]. *)
Fixpoint stored_at (cb : rust_callback) (cs : list call) : list rust_callback :=
  match cs with
  | [] => []
  | CallSetMessageHandler cb' :: cs' => stored_at cb' cs'
  | _ :: cs' => cb :: stored_at cb cs'
  end.

(** The functions called through [rust_log] in a trace. *)
Definition callee_of (e : event) : list rust_callback :=
  match e with
  | EvLog f _ _ _ => [FnPtr f]
  | _ => []
  end.

Definition callees (tr : list event) : list rust_callback :=
  flat_map callee_of tr.

(** ** A formatting engine for concrete runs

    The conversions [%s], [%d], [%i], [%c] and [%%] of the C library's
    formatted output, enough to run the bridge on the diagnostics of the
    two libraries.  A conversion that finds no argument of its type is
    undefined behaviour in C; here it prints nothing. *)

Module Printf.

Definition decimal (z : Z) : list byte :=
  list_byte_of_string (NilEmpty.string_of_int (Z.to_int z)).

Definition char_of (z : Z) : list byte :=
  match Byte.of_N (Z.to_N (z mod 256)) with
  | Some b => [b]
  | None => []
  end.

Definition conversion (spec : byte) (ap : va_list) : list byte * va_list :=
  if Byte.eqb spec "s" then
    match ap with
    | VaStr s :: ap' => (c_str s, ap')
    | _ => ([], tl ap)
    end
  else if Byte.eqb spec "d" || Byte.eqb spec "i" then
    match ap with
    | VaInt z :: ap' => (decimal z, ap')
    | _ => ([], tl ap)
    end
  else if Byte.eqb spec "c" then
    match ap with
    | VaInt z :: ap' => (char_of z, ap')
    | _ => ([], tl ap)
    end
  else ([], ap).

Fixpoint format (fmt : list byte) (ap : va_list) : list byte :=
  match fmt with
  | [] => []
  | c :: rest =>
      if is_nul c then []
      else if Byte.eqb c "%" then
        match rest with
        | [] => []
        | spec :: rest' =>
            if Byte.eqb spec "%" then "%"%byte :: format rest' ap
            else
              let (text, ap') := conversion spec ap in
              text ++ format rest' ap'
        end
      else c :: format rest ap
  end.

(** A string literal of C: its bytes and the terminator. *)
Definition lit (s : string) : list byte := list_byte_of_string s ++ [NUL].

End Printf.

(** ** What the sound-device adapter leaves in [msg]

    The bytes kept by the bounded formatting call, the terminator, and
    behind them the cells of the array that were never written. *)

Definition kept_bytes (out : list byte) : list byte := firstn 1022 out.

Definition alsa_msg (stack : nat -> byte) (out : list byte) : list byte :=
  (kept_bytes out ++ [NUL]) ++
  skipn (length (kept_bytes out ++ [NUL])) (uninit stack 1024).

(** ** Concrete inputs *)

Definition stack_of (b : byte) : nat -> byte := fun _ => b.

Definition registered_with (f : positive) : bridge :=
  mkBridge (FnPtr f) alsa_error_handler_ptr jack_info_handler_ptr
    jack_error_handler_ptr.

(** The position in ALSA that a diagnostic reports. *)
Definition pcm_c : list byte := Printf.lit "pcm.c".
Definition snd_pcm_open_noupdate : list byte := Printf.lit "snd_pcm_open_noupdate".
Definition conf_c : list byte := Printf.lit "conf.c".
Definition snd_config_load : list byte := Printf.lit "snd_config_load".

(** A format without conversions that renders to [n] letters. *)
Definition letters (n : nat) : list byte := repeat "A"%byte n ++ [NUL].

(** Closes a goal on the triples of a run that is a crash or one call. *)
Ltac one_log :=
  unfold trace_of, forwarded, flat_map, forwarded_of; cbn [app fst snd];
  first [ apply Forall_nil
        | apply Forall_cons; [split; auto | apply Forall_nil] ].

(** Scenario 1 of the specification, on the formatter alone. *)
Example format_failed_device_busy :
  Printf.format (Printf.lit "failed: %s") [VaStr (Printf.lit "device busy")]
  = list_byte_of_string "failed: device busy".
Proof. reflexivity. Qed.

Example format_decimal :
  Printf.format (Printf.lit "xrun of %d us (%i%%)") [VaInt (-42); VaInt 7]
  = list_byte_of_string "xrun of -42 us (7%)".
Proof. reflexivity. Qed.

(** ** C strings and arrays *)

Lemma c_str_no_nul (l : list byte) : ~ In NUL (c_str l).
Proof.
  induction l as [|b l IH]; simpl; [tauto|].
  unfold is_nul. destruct (Byte.eqb b NUL) eqn:E; simpl; [tauto|].
  intros [H|H]; [|tauto].
  apply Byte.eqb_false in E. congruence.
Qed.

Lemma c_str_id (l : list byte) : ~ In NUL l -> c_str l = l.
Proof.
  induction l as [|b l IH]; simpl; intros H; [reflexivity|].
  unfold is_nul. destruct (Byte.eqb b NUL) eqn:E.
  - apply Byte.byte_dec_bl in E. tauto.
  - f_equal. apply IH. tauto.
Qed.

Lemma c_str_app_nul (l r : list byte) : c_str ((l ++ [NUL]) ++ r) = c_str l.
Proof.
  induction l as [|b l IH]; simpl; [reflexivity|].
  destruct (is_nul b); [reflexivity|]. f_equal. exact IH.
Qed.

Lemma c_str_firstn (n : nat) (l : list byte) :
  c_str (firstn n l) = firstn n (c_str l).
Proof.
  revert l. induction n as [|n IH]; intros [|b l]; simpl; try reflexivity.
  destruct (is_nul b); simpl; [reflexivity|]. f_equal. apply IH.
Qed.

Lemma c_str_length_le (l : list byte) : (length (c_str l) <= length l)%nat.
Proof.
  induction l as [|b l IH]; simpl; [lia|].
  destruct (is_nul b); simpl; lia.
Qed.

Lemma uninit_length (stack : nat -> byte) (n : Z) :
  length (uninit stack n) = Z.to_nat n.
Proof. unfold uninit. rewrite length_map, length_seq. reflexivity. Qed.

Lemma kept_bytes_length (out : list byte) :
  length (kept_bytes out) = Nat.min 1022 (length out).
Proof. unfold kept_bytes. apply length_firstn. Qed.

Lemma store_bytes_fits (a bs : list byte) :
  (length bs <= length a)%nat ->
  store_bytes a bs = Some (bs ++ skipn (length bs) a).
Proof.
  intros H. unfold store_bytes.
  destruct (Nat.leb_spec (length bs) (length a)); [reflexivity|lia].
Qed.

Lemma store_bytes_length (a bs a' : list byte) :
  store_bytes a bs = Some a' -> length a' = length a.
Proof.
  unfold store_bytes.
  destruct (Nat.leb_spec (length bs) (length a)) as [H|H]; [|discriminate].
  intros E. injection E as <-. rewrite length_app, length_skipn. lia.
Qed.

(** ** Runs of the single functions *)

Lemma call_rust_log_run (severity : Z) (tag : string) (msg : list byte) (st : bridge) :
  call_rust_log severity tag msg st =
  match rust_log st with
  | NULL => Crash NullCall []
  | FnPtr f => Done tt st [EvLog f (to_uint8 severity) tag msg]
  end.
Proof.
  unfold call_rust_log, bind, get_rust_log.
  destruct (rust_log st); reflexivity.
Qed.

Lemma set_message_handler_run (callback : rust_callback) (st : bridge) :
  set_message_handler callback st =
  Done tt
    (mkBridge callback alsa_error_handler_ptr jack_info_handler_ptr
       jack_error_handler_ptr)
    [EvStoreCallback callback;
     EvSetAlsaHandler alsa_error_handler_ptr;
     EvSetJackInfo jack_info_handler_ptr;
     EvSetJackError jack_error_handler_ptr].
Proof. reflexivity. Qed.

Section BridgeFacts.

Variable vformat : list byte -> va_list -> list byte.

Lemma vsnprintf_into_msg (stack : nat -> byte) (fmt : list byte) (ap : va_list) :
  vsnprintf vformat (uninit stack 1024) (to_size_t (1024 - 1)) fmt ap =
  Some (alsa_msg stack (vformat fmt ap), Z.of_nat (length (vformat fmt ap))).
Proof.
  unfold vsnprintf.
  change (to_size_t (1024 - 1)) with 1023.
  change (1023 =? 0) with false. cbv iota zeta.
  change (Z.to_nat (1023 - 1)) with 1022%nat.
  rewrite store_bytes_fits; [reflexivity|].
  rewrite length_app, uninit_length, length_firstn.
  change (Z.to_nat 1024) with 1024%nat. simpl length. lia.
Qed.

Lemma alsa_error_handler_run (stack : nat -> byte)
    (file : list byte) (line : Z) (function : list byte) (err : Z)
    (fmt : list byte) (ap : va_list) (st : bridge) :
  alsa_error_handler vformat stack file line function err fmt ap st =
  call_rust_log 3 alsa_tag (alsa_msg stack (vformat fmt ap)) st.
Proof.
  unfold alsa_error_handler. cbv zeta. unfold bind at 1.
  rewrite vsnprintf_into_msg. unfold lift_store, ret.
  destruct (call_rust_log 3 alsa_tag _ st); reflexivity.
Qed.

End BridgeFacts.

(** ** The contents of [msg] after the formatting call *)

Lemma alsa_msg_length (stack : nat -> byte) (out : list byte) :
  length (alsa_msg stack out) = 1024%nat.
Proof.
  unfold alsa_msg.
  rewrite length_app, length_skipn, uninit_length.
  rewrite length_app, kept_bytes_length.
  change (Z.to_nat 1024) with 1024%nat. simpl length. lia.
Qed.

Lemma alsa_msg_c_str (stack : nat -> byte) (out : list byte) :
  c_str (alsa_msg stack out) = firstn 1022 (c_str out).
Proof.
  unfold alsa_msg. rewrite c_str_app_nul.
  unfold kept_bytes. apply c_str_firstn.
Qed.

Lemma alsa_msg_written (stack : nat -> byte) (out : list byte) :
  firstn (length (kept_bytes out) + 1) (alsa_msg stack out) = kept_bytes out ++ [NUL].
Proof.
  unfold alsa_msg.
  replace (length (kept_bytes out) + 1)%nat
    with (length (kept_bytes out ++ [NUL]) + 0)%nat
    by (rewrite length_app; simpl length; lia).
  rewrite firstn_app_2. simpl. apply app_nil_r.
Qed.

Lemma alsa_msg_last_cell (stack : nat -> byte) (out : list byte) (d : byte) :
  nth 1023 (alsa_msg stack out) d = stack 1023%nat.
Proof.
  unfold alsa_msg, uninit.
  set (w := kept_bytes out ++ [NUL]).
  assert (Hw : (length w <= 1023)%nat).
  { unfold w. rewrite length_app, kept_bytes_length. simpl length. lia. }
  rewrite app_nth2 by lia.
  rewrite nth_skipn.
  replace (length w + (1023 - length w))%nat with 1023%nat by lia.
  change (Z.to_nat 1024) with 1024%nat.
  rewrite nth_indep with (d' := stack 0%nat)
    by (rewrite length_map, length_seq; lia).
  rewrite map_nth. rewrite seq_nth by lia. reflexivity.
Qed.

Lemma kept_bytes_long (out : list byte) :
  (1022 < length out)%nat -> length (kept_bytes out) = 1022%nat.
Proof. intros H. rewrite kept_bytes_length. lia. Qed.

Lemma kept_bytes_short (out : list byte) :
  (length out <= 1022)%nat -> kept_bytes out = out.
Proof. intros H. unfold kept_bytes. apply firstn_all2. exact H. Qed.

(** ** The sound-device adapter: truncation *)

Lemma letters_render (n : nat) :
  Printf.format (letters n) [] = repeat "A"%byte n.
Proof.
  unfold letters. induction n as [|n IH]; simpl; [reflexivity|].
  f_equal. exact IH.
Qed.

Lemma firstn_letters (k n : nat) :
  firstn k (repeat "A"%byte n) = repeat "A"%byte (Nat.min k n).
Proof.
  revert n. induction k as [|k IH]; intros [|n]; simpl; try reflexivity.
  f_equal. apply IH.
Qed.

Lemma letters_text (n : nat) : c_str (repeat "A"%byte n) = repeat "A"%byte n.
Proof. induction n as [|n IH]; simpl; [reflexivity|]. f_equal. exact IH. Qed.

(** C1, as amended: when the complete rendering is longer than 1022
    bytes, the adapter returns normally (no write past [msg], no crash)
    after one call of the callback whose message array holds exactly the
    first 1022 bytes of the rendering followed by the terminator; the
    text forwarded is the first 1022 bytes of the rendered text. *)
Theorem alsa_long_rendering_cut_at_1022 :
  forall (vformat : list byte -> va_list -> list byte) (stack : nat -> byte)
         (file : list byte) (line : Z) (function : list byte) (err : Z)
         (fmt : list byte) (ap : va_list) (st : bridge) (f : positive),
    rust_log st = FnPtr f ->
    (1022 < length (vformat fmt ap))%nat ->
    exists msg : list byte,
      alsa_error_handler vformat stack file line function err fmt ap st
        = Done tt st [EvLog f 3 alsa_tag msg] /\
      length msg = 1024%nat /\
      firstn 1023 msg = firstn 1022 (vformat fmt ap) ++ [NUL] /\
      c_str msg = firstn 1022 (c_str (vformat fmt ap)).
Proof.
  intros vformat stack file line function err fmt ap st f Hf Hlong.
  exists (alsa_msg stack (vformat fmt ap)).
  rewrite alsa_error_handler_run, call_rust_log_run, Hf.
  repeat split.
  - apply alsa_msg_length.
  - pose proof (alsa_msg_written stack (vformat fmt ap)) as H.
    rewrite (kept_bytes_long _ Hlong) in H. exact H.
  - apply alsa_msg_c_str.
Qed.

Lemma alsa_long_rendering_cut_at_1022_witness :
  rust_log (registered_with 7) = FnPtr 7 /\
  (1022 < length (Printf.format (letters 2000) []))%nat /\
  exists msg : list byte,
    alsa_error_handler Printf.format (stack_of "x") pcm_c 2565
      snd_pcm_open_noupdate (-2) (letters 2000) [] (registered_with 7)
      = Done tt (registered_with 7) [EvLog 7 3 alsa_tag msg] /\
    length msg = 1024%nat /\
    firstn 1023 msg = firstn 1022 (Printf.format (letters 2000) []) ++ [NUL] /\
    c_str msg = firstn 1022 (c_str (Printf.format (letters 2000) [])).
Proof.
  split; [reflexivity|].
  split; [rewrite letters_render, repeat_length; lia|].
  apply (alsa_long_rendering_cut_at_1022 Printf.format (stack_of "x") pcm_c 2565
           snd_pcm_open_noupdate (-2) (letters 2000) [] (registered_with 7) 7).
  - reflexivity.
  - rewrite letters_render, repeat_length. lia.
Defined.

(** C1 as the specification words it fails: a rendering of 1024 bytes is
    forwarded as its first 1022 bytes, not its first 1023. *)
Lemma alsa_first_1023_bytes_counterexample :
  (1023 < length (Printf.format (letters 1024) []))%nat /\
  forwarded (trace_of
    (alsa_error_handler Printf.format (stack_of "x") pcm_c 2565
       snd_pcm_open_noupdate (-2) (letters 1024) [] (registered_with 7)))
  = [(3, alsa_tag, repeat "A"%byte 1022)] /\
  forwarded (trace_of
    (alsa_error_handler Printf.format (stack_of "x") pcm_c 2565
       snd_pcm_open_noupdate (-2) (letters 1024) [] (registered_with 7)))
  <> [(3, alsa_tag, firstn 1023 (Printf.format (letters 1024) []))].
Proof.
  assert (E : forwarded (trace_of
    (alsa_error_handler Printf.format (stack_of "x") pcm_c 2565
       snd_pcm_open_noupdate (-2) (letters 1024) [] (registered_with 7)))
    = [(3, alsa_tag, repeat "A"%byte 1022)]).
  { rewrite alsa_error_handler_run, call_rust_log_run. simpl rust_log.
    cbv iota. unfold trace_of, forwarded, flat_map, forwarded_of.
    rewrite alsa_msg_c_str, letters_render, letters_text.
    rewrite firstn_letters. reflexivity. }
  split; [rewrite letters_render, repeat_length; lia|].
  split; [exact E|].
  rewrite E, letters_render, firstn_letters.
  intros H.
  apply (f_equal (map (fun t => length (snd t)))) in H.
  cbn [map snd] in H. rewrite !repeat_length in H.
  assert (H' : 1022%nat = Nat.min 1023 1024) by congruence.
  lia.
Qed.

(** C2, as amended: when the complete rendering is at most 1022 bytes
    long, the message array handed to the callback holds the complete
    rendering followed by the terminator, and the text forwarded is the
    complete rendered text. *)
Theorem alsa_short_rendering_complete :
  forall (vformat : list byte -> va_list -> list byte) (stack : nat -> byte)
         (file : list byte) (line : Z) (function : list byte) (err : Z)
         (fmt : list byte) (ap : va_list) (st : bridge) (f : positive),
    rust_log st = FnPtr f ->
    (length (vformat fmt ap) <= 1022)%nat ->
    exists msg : list byte,
      alsa_error_handler vformat stack file line function err fmt ap st
        = Done tt st [EvLog f 3 alsa_tag msg] /\
      firstn (length (vformat fmt ap) + 1) msg = vformat fmt ap ++ [NUL] /\
      c_str msg = c_str (vformat fmt ap).
Proof.
  intros vformat stack file line function err fmt ap st f Hf Hshort.
  exists (alsa_msg stack (vformat fmt ap)).
  rewrite alsa_error_handler_run, call_rust_log_run, Hf.
  repeat split.
  - pose proof (alsa_msg_written stack (vformat fmt ap)) as H.
    rewrite (kept_bytes_short _ Hshort) in H. exact H.
  - rewrite alsa_msg_c_str. apply firstn_all2.
    pose proof (c_str_length_le (vformat fmt ap)). lia.
Qed.

Lemma alsa_short_rendering_complete_witness :
  rust_log (registered_with 7) = FnPtr 7 /\
  (length (Printf.format (Printf.lit "failed: %s")
             [VaStr (Printf.lit "device busy")]) <= 1022)%nat /\
  exists msg : list byte,
    alsa_error_handler Printf.format (stack_of "x") pcm_c 2565
      snd_pcm_open_noupdate (-16) (Printf.lit "failed: %s")
      [VaStr (Printf.lit "device busy")] (registered_with 7)
      = Done tt (registered_with 7) [EvLog 7 3 alsa_tag msg] /\
    firstn (length (Printf.format (Printf.lit "failed: %s")
                      [VaStr (Printf.lit "device busy")]) + 1) msg
      = Printf.format (Printf.lit "failed: %s")
          [VaStr (Printf.lit "device busy")] ++ [NUL] /\
    c_str msg = c_str (Printf.format (Printf.lit "failed: %s")
                         [VaStr (Printf.lit "device busy")]).
Proof.
  split; [reflexivity|].
  split; [vm_compute; lia|].
  apply (alsa_short_rendering_complete Printf.format (stack_of "x") pcm_c 2565
           snd_pcm_open_noupdate (-16) (Printf.lit "failed: %s")
           [VaStr (Printf.lit "device busy")] (registered_with 7) 7).
  - reflexivity.
  - vm_compute. lia.
Defined.

(** C2 as the specification words it fails at the bound itself: a
    rendering of exactly 1023 bytes loses its last byte. *)
Lemma alsa_1023_byte_rendering_counterexample :
  (length (Printf.format (letters 1023) []) <= 1023)%nat /\
  forwarded (trace_of
    (alsa_error_handler Printf.format (stack_of "x") conf_c 1872
       snd_config_load (-22) (letters 1023) [] (registered_with 7)))
  = [(3, alsa_tag, repeat "A"%byte 1022)] /\
  forwarded (trace_of
    (alsa_error_handler Printf.format (stack_of "x") conf_c 1872
       snd_config_load (-22) (letters 1023) [] (registered_with 7)))
  <> [(3, alsa_tag, Printf.format (letters 1023) [])].
Proof.
  assert (E : forwarded (trace_of
    (alsa_error_handler Printf.format (stack_of "x") conf_c 1872
       snd_config_load (-22) (letters 1023) [] (registered_with 7)))
    = [(3, alsa_tag, repeat "A"%byte 1022)]).
  { rewrite alsa_error_handler_run, call_rust_log_run. simpl rust_log.
    cbv iota. unfold trace_of, forwarded, flat_map, forwarded_of.
    rewrite alsa_msg_c_str, letters_render, letters_text.
    rewrite firstn_letters. reflexivity. }
  split; [rewrite letters_render, repeat_length; lia|].
  split; [exact E|].
  rewrite E, letters_render.
  intros H.
  apply (f_equal (map (fun t => length (snd t)))) in H.
  cbn [map snd] in H. rewrite !repeat_length in H.
  assert (H' : 1022%nat = 1023%nat) by congruence.
  lia.
Qed.

(** Scenario 1 of the specification, end to end. *)
Example alsa_failed_device_busy :
  forwarded (trace_of
    (alsa_error_handler Printf.format (stack_of "x") pcm_c 2565
       snd_pcm_open_noupdate (-16) (Printf.lit "failed: %s")
       [VaStr (Printf.lit "device busy")] (registered_with 7)))
  = [(3, alsa_tag, list_byte_of_string "failed: device busy")].
Proof. vm_compute. reflexivity. Qed.

(** ** The sound-device adapter: the bounds of [msg] *)

(** C9: the bounded formatting call succeeds on the 1024-cell array; it
    stores the bytes kept and one NUL, at most 1023 bytes in all, at the
    start of the array, and every later cell (the last cell among them)
    keeps its old contents.  The array handed to the callback is this
    one: it has a NUL among its first 1023 cells and its text has at
    most 1022 characters, and the adapter never writes past the array. *)
Theorem alsa_write_within_msg :
  forall (vformat : list byte -> va_list -> list byte) (stack : nat -> byte)
         (file : list byte) (line : Z) (function : list byte) (err : Z)
         (fmt : list byte) (ap : va_list) (st : bridge),
    let written := firstn 1022 (vformat fmt ap) ++ [NUL] in
    exists msg : list byte,
      vsnprintf vformat (uninit stack 1024) (to_size_t (1024 - 1)) fmt ap
        = Some (msg, Z.of_nat (length (vformat fmt ap))) /\
      msg = written ++ skipn (length written) (uninit stack 1024) /\
      (length written <= 1023)%nat /\
      length msg = 1024%nat /\
      nth 1023 msg NUL = stack 1023%nat /\
      nul_terminated (firstn 1023 msg) /\
      (length (c_str msg) <= 1022)%nat /\
      alsa_error_handler vformat stack file line function err fmt ap st
        = call_rust_log 3 alsa_tag msg st /\
      (forall tr, alsa_error_handler vformat stack file line function err fmt ap st
                  <> Crash BufferOverflow tr).
Proof.
  intros vformat stack file line function err fmt ap st written.
  exists (alsa_msg stack (vformat fmt ap)).
  assert (Hw : (length written <= 1023)%nat).
  { unfold written. rewrite length_app, length_firstn. simpl length. lia. }
  split; [apply vsnprintf_into_msg|].
  split; [reflexivity|].
  split; [exact Hw|].
  split; [apply alsa_msg_length|].
  split; [apply alsa_msg_last_cell|].
  split.
  { unfold nul_terminated, alsa_msg. fold (kept_bytes (vformat fmt ap)) in written.
    fold written. rewrite firstn_app.
    apply in_or_app. left.
    rewrite firstn_all2 by lia. unfold written.
    apply in_or_app. right. left. reflexivity. }
  split.
  { rewrite alsa_msg_c_str. rewrite length_firstn. lia. }
  split; [apply alsa_error_handler_run|].
  intros tr. rewrite alsa_error_handler_run, call_rust_log_run.
  destruct (rust_log st); discriminate.
Qed.

(** ** The three adapters: severity and tag *)

(** C3: whatever the arguments and the state, the sound-device adapter
    calls the stored callback with severity 3 and the sound-device tag,
    the audio-server info adapter with severity 2 and the audio-server
    tag, and the audio-server error adapter with severity 3 and the
    audio-server tag; with no callback stored nothing is forwarded. *)
Theorem adapters_fixed_severity_and_tag :
  forall (vformat : list byte -> va_list -> list byte) (stack : nat -> byte)
         (file : list byte) (line : Z) (function : list byte) (err : Z)
         (fmt : list byte) (ap : va_list) (msg : list byte) (st : bridge),
    (exists buf : list byte,
       alsa_error_handler vformat stack file line function err fmt ap st =
       match rust_log st with
       | NULL => Crash NullCall []
       | FnPtr f => Done tt st [EvLog f 3 "yotredash::alsa" buf]
       end) /\
    jack_info_handler msg st =
      match rust_log st with
      | NULL => Crash NullCall []
      | FnPtr f => Done tt st [EvLog f 2 "yotredash::jack" msg]
      end /\
    jack_error_handler msg st =
      match rust_log st with
      | NULL => Crash NullCall []
      | FnPtr f => Done tt st [EvLog f 3 "yotredash::jack" msg]
      end.
Proof.
  intros vformat stack file line function err fmt ap msg st.
  split; [|split].
  - exists (alsa_msg stack (vformat fmt ap)).
    rewrite alsa_error_handler_run. apply call_rust_log_run.
  - unfold jack_info_handler. apply call_rust_log_run.
  - unfold jack_error_handler. apply call_rust_log_run.
Qed.

(** ** Registration *)

(** C4: for every callback, [set_message_handler] first stores it in
    [rust_log], leaving the three slots as they were, then fills the
    sound-device slot, the audio-server info slot and the audio-server
    error slot with the three adapters, in this order, and returns no
    value. *)
Theorem set_message_handler_stores_then_installs :
  forall (callback : rust_callback) (st : bridge),
    (exists st1 : bridge,
       assign_rust_log callback st = Done tt st1 [EvStoreCallback callback] /\
       rust_log st1 = callback /\
       snd_lib_error st1 = snd_lib_error st /\
       jack_info_callback st1 = jack_info_callback st /\
       jack_error_callback st1 = jack_error_callback st) /\
    (exists st' : bridge,
       set_message_handler callback st =
         Done tt st'
           [EvStoreCallback callback;
            EvSetAlsaHandler alsa_error_handler_ptr;
            EvSetJackInfo jack_info_handler_ptr;
            EvSetJackError jack_error_handler_ptr] /\
       rust_log st' = callback /\
       snd_lib_error st' = alsa_error_handler_ptr /\
       jack_info_callback st' = jack_info_handler_ptr /\
       jack_error_callback st' = jack_error_handler_ptr).
Proof.
  intros callback st. split.
  - exists (set_rust_log callback st). repeat split.
  - eexists. rewrite set_message_handler_run. repeat split.
Qed.

(** C5: registering [c1] and then [c2] leaves the bridge in the state
    that registering [c2] alone leaves it in: the callback stored is
    [c2] and the three slots hold the three adapters. *)
Theorem set_message_handler_last_wins :
  forall (c1 c2 : rust_callback) (st : bridge),
    exists (st' : bridge) (tr12 tr2 : list event),
      (set_message_handler c1 ;; set_message_handler c2) st = Done tt st' tr12 /\
      set_message_handler c2 st = Done tt st' tr2 /\
      rust_log st' = c2 /\
      snd_lib_error st' = alsa_error_handler_ptr /\
      jack_info_callback st' = jack_info_handler_ptr /\
      jack_error_callback st' = jack_error_handler_ptr.
Proof.
  intros c1 c2 st. unfold bind at 1.
  rewrite !set_message_handler_run.
  do 3 eexists. repeat split.
Qed.

(** ** The pass-through adapters *)

(** C6: with a callback stored, each audio-server adapter returns after
    exactly one call of that callback, whose message argument is the
    argument the adapter received, whatever its bytes and its length;
    the globals are left as they were. *)
Theorem jack_handlers_pass_message_through :
  forall (msg : list byte) (st : bridge) (f : positive),
    rust_log st = FnPtr f ->
    jack_info_handler msg st = Done tt st [EvLog f 2 jack_tag msg] /\
    jack_error_handler msg st = Done tt st [EvLog f 3 jack_tag msg] /\
    forwarded (trace_of (jack_info_handler msg st)) = [(2, jack_tag, c_str msg)] /\
    forwarded (trace_of (jack_error_handler msg st)) = [(3, jack_tag, c_str msg)].
Proof.
  intros msg st f Hf.
  unfold jack_info_handler, jack_error_handler.
  rewrite !call_rust_log_run, Hf. repeat split.
Qed.

Lemma jack_handlers_pass_message_through_witness :
  rust_log (registered_with 7) = FnPtr 7 /\
  jack_info_handler (Printf.lit "client registered") (registered_with 7)
    = Done tt (registered_with 7)
        [EvLog 7 2 jack_tag (Printf.lit "client registered")] /\
  jack_error_handler (Printf.lit "client registered") (registered_with 7)
    = Done tt (registered_with 7)
        [EvLog 7 3 jack_tag (Printf.lit "client registered")] /\
  forwarded (trace_of
    (jack_info_handler (Printf.lit "client registered") (registered_with 7)))
    = [(2, jack_tag, c_str (Printf.lit "client registered"))] /\
  forwarded (trace_of
    (jack_error_handler (Printf.lit "client registered") (registered_with 7)))
    = [(3, jack_tag, c_str (Printf.lit "client registered"))].
Proof.
  split; [reflexivity|].
  apply (jack_handlers_pass_message_through
           (Printf.lit "client registered") (registered_with 7) 7).
  reflexivity.
Defined.

(** Scenario 2 of the specification. *)
Example jack_client_registered :
  forwarded (trace_of
    (jack_info_handler (Printf.lit "client registered") (registered_with 7)))
  = [(2, jack_tag, list_byte_of_string "client registered")].
Proof. vm_compute. reflexivity. Qed.

(** The pass-through adapters do not truncate: 2000 letters arrive. *)
Example jack_long_message :
  forwarded (trace_of (jack_error_handler (letters 2000) (registered_with 7)))
  = [(3, jack_tag, repeat "A"%byte 2000)].
Proof. vm_compute. reflexivity. Qed.

(** ** The sound-device adapter: the discarded arguments *)

(** C7: two calls of the sound-device adapter with the same format and
    arguments have the same outcome whatever file, line, function and
    error code each is given; the triples forwarded are the same even
    when the two calls find different old contents in [msg]. *)
Theorem alsa_position_and_code_ignored :
  forall (vformat : list byte -> va_list -> list byte) (stack stack' : nat -> byte)
         (file file' : list byte) (line line' : Z)
         (function function' : list byte) (err err' : Z)
         (fmt : list byte) (ap : va_list) (st : bridge),
    alsa_error_handler vformat stack file line function err fmt ap st =
    alsa_error_handler vformat stack file' line' function' err' fmt ap st /\
    forwarded (trace_of
      (alsa_error_handler vformat stack file line function err fmt ap st)) =
    forwarded (trace_of
      (alsa_error_handler vformat stack' file' line' function' err' fmt ap st)).
Proof.
  intros. split; [reflexivity|].
  rewrite !alsa_error_handler_run, !call_rust_log_run.
  destruct (rust_log st) as [|f]; [reflexivity|].
  unfold trace_of, forwarded, flat_map, forwarded_of.
  rewrite !alsa_msg_c_str. reflexivity.
Qed.

(** ** Sequences of calls *)

Lemma trace_of_bind {A B : Type} (m : M A) (k : A -> M B) (st : bridge) :
  trace_of (bind m k st) =
  match m st with
  | Done a st1 tr1 => tr1 ++ trace_of (k a st1)
  | Crash _ tr1 => tr1
  end.
Proof.
  unfold bind. destruct (m st) as [a st1 tr1|why tr1]; [|reflexivity].
  destruct (k a st1); reflexivity.
Qed.

Lemma forwarded_app (tr1 tr2 : list event) :
  forwarded (tr1 ++ tr2) = forwarded tr1 ++ forwarded tr2.
Proof. unfold forwarded. apply flat_map_app. Qed.

Lemma callees_app (tr1 tr2 : list event) :
  callees (tr1 ++ tr2) = callees tr1 ++ callees tr2.
Proof. unfold callees. apply flat_map_app. Qed.

Section CallFacts.

Variable vformat : list byte -> va_list -> list byte.

(** An adapter called with a function stored in [rust_log] returns, keeps
    the globals, and has called that function once. *)
Lemma adapter_call_run (c : call) (st : bridge) (f : positive) :
  is_adapter_call c = true ->
  rust_log st = FnPtr f ->
  exists tr, run_call vformat c st = Done tt st tr /\ callees tr = [FnPtr f].
Proof.
  intros Hc Hf. destruct c; try discriminate; simpl run_call.
  - rewrite alsa_error_handler_run, call_rust_log_run, Hf.
    eexists. split; reflexivity.
  - unfold jack_info_handler. rewrite call_rust_log_run, Hf.
    eexists. split; reflexivity.
  - unfold jack_error_handler. rewrite call_rust_log_run, Hf.
    eexists. split; reflexivity.
Qed.

Lemma run_calls_registered (cs : list call) :
  forall (st : bridge) (f : positive),
    rust_log st = FnPtr f ->
    forallb registers_function cs = true ->
    exists st' tr,
      run_calls vformat cs st = Done tt st' tr /\
      rust_log st' <> NULL /\
      callees tr = stored_at (FnPtr f) cs.
Proof.
  induction cs as [|c cs IH]; intros st f Hf Hreg.
  - exists st, []. repeat split. rewrite Hf. discriminate.
  - simpl in Hreg. apply andb_prop in Hreg as [Hc Hcs].
    destruct (is_adapter_call c) eqn:Ha.
    + destruct (adapter_call_run c st f Ha Hf) as [tr1 [Hrun Hcal]].
      destruct (IH st f Hf Hcs) as [st' [tr2 [Hrest [Hnn Hcal2]]]].
      exists st', (tr1 ++ tr2).
      simpl run_calls. unfold bind. rewrite Hrun, Hrest.
      repeat split; [exact Hnn|].
      rewrite callees_app, Hcal, Hcal2.
      destruct c; try discriminate; reflexivity.
    + destruct c as [cb| | |]; try discriminate.
      destruct cb as [|g]; [discriminate|].
      destruct (IH (mkBridge (FnPtr g) alsa_error_handler_ptr
                      jack_info_handler_ptr jack_error_handler_ptr) g
                  eq_refl Hcs) as [st' [tr2 [Hrest [Hnn Hcal2]]]].
      eexists st', _.
      simpl run_calls. unfold bind.
      rewrite set_message_handler_run, Hrest.
      repeat split; [exact Hnn|].
      rewrite callees_app, Hcal2. reflexivity.
Qed.

Lemma stored_at_not_null (cs : list call) :
  forall cb : rust_callback,
    cb <> NULL ->
    forallb registers_function cs = true ->
    ~ In NULL (stored_at cb cs).
Proof.
  induction cs as [|c cs IH]; intros cb Hcb Hreg; simpl; [tauto|].
  simpl in Hreg. apply andb_prop in Hreg as [Hc Hcs].
  destruct c as [cb'| | |]; simpl.
  - apply IH; [|exact Hcs]. destruct cb'; [discriminate Hc|discriminate].
  - intros [H|H]; [congruence|]. revert H. apply IH; assumption.
  - intros [H|H]; [congruence|]. revert H. apply IH; assumption.
  - intros [H|H]; [congruence|]. revert H. apply IH; assumption.
Qed.

Lemma run_call_forwarded (c : call) (st : bridge) :
  Forall (fun t : Z * string * list byte =>
            (fst (fst t) = 2 \/ fst (fst t) = 3) /\
            (snd (fst t) = "yotredash::alsa"%string \/
             snd (fst t) = "yotredash::jack"%string))
         (forwarded (trace_of (run_call vformat c st))).
Proof.
  destruct c; simpl run_call.
  - rewrite set_message_handler_run. simpl. constructor.
  - rewrite alsa_error_handler_run, call_rust_log_run.
    destruct (rust_log st); one_log.
  - unfold jack_info_handler. rewrite call_rust_log_run.
    destruct (rust_log st); one_log.
  - unfold jack_error_handler. rewrite call_rust_log_run.
    destruct (rust_log st); one_log.
Qed.

End CallFacts.

Lemma stored_at_length (cs : list call) :
  forall cb : rust_callback,
    length (stored_at cb cs) = length (filter is_adapter_call cs).
Proof.
  induction cs as [|c cs IH]; intros cb; [reflexivity|].
  destruct c; simpl; rewrite IH; reflexivity.
Qed.

(** ** The stored callback is there when an adapter is called *)

(** C8, as amended: when [set_message_handler] has been called with a
    function before any adapter is called, and no later registration
    passes the null pointer, the whole sequence of calls returns; every
    adapter call in it calls, once, the function that [rust_log] holds at
    that moment, which is never the null pointer. *)
Theorem registered_adapters_call_stored_function :
  forall (vformat : list byte -> va_list -> list byte) (f : positive)
         (rest : list call) (st0 : bridge),
    forallb registers_function rest = true ->
    exists (st : bridge) (tr : list event),
      run_calls vformat (CallSetMessageHandler (FnPtr f) :: rest) st0
        = Done tt st tr /\
      rust_log st <> NULL /\
      callees tr = stored_at (FnPtr f) rest /\
      ~ In NULL (callees tr) /\
      length (callees tr) = length (filter is_adapter_call rest).
Proof.
  intros vformat f rest st0 Hreg.
  destruct (run_calls_registered vformat rest
              (mkBridge (FnPtr f) alsa_error_handler_ptr
                 jack_info_handler_ptr jack_error_handler_ptr) f eq_refl Hreg)
    as [st [tr [Hrun [Hnn Hcal]]]].
  eexists st, _.
  simpl run_calls. unfold bind.
  rewrite set_message_handler_run, Hrun.
  split; [reflexivity|].
  split; [exact Hnn|].
  rewrite callees_app. change (callees _ ++ callees tr) with (callees tr).
  rewrite Hcal.
  split; [reflexivity|].
  split; [apply stored_at_not_null; [discriminate|exact Hreg]|].
  apply stored_at_length.
Qed.

Lemma registered_adapters_call_stored_function_witness :
  forallb registers_function
    [CallJackInfoHandler (Printf.lit "client registered");
     CallAlsaErrorHandler (stack_of "x") pcm_c 2565 snd_pcm_open_noupdate (-16)
       (Printf.lit "failed: %s") [VaStr (Printf.lit "device busy")];
     CallSetMessageHandler (FnPtr 9);
     CallJackErrorHandler (Printf.lit "cannot connect")] = true /\
  exists (st : bridge) (tr : list event),
    run_calls Printf.format
      (CallSetMessageHandler (FnPtr 7) ::
       [CallJackInfoHandler (Printf.lit "client registered");
        CallAlsaErrorHandler (stack_of "x") pcm_c 2565 snd_pcm_open_noupdate (-16)
          (Printf.lit "failed: %s") [VaStr (Printf.lit "device busy")];
        CallSetMessageHandler (FnPtr 9);
        CallJackErrorHandler (Printf.lit "cannot connect")])
      bridge_init = Done tt st tr /\
    rust_log st <> NULL /\
    callees tr =
      stored_at (FnPtr 7)
        [CallJackInfoHandler (Printf.lit "client registered");
         CallAlsaErrorHandler (stack_of "x") pcm_c 2565 snd_pcm_open_noupdate (-16)
           (Printf.lit "failed: %s") [VaStr (Printf.lit "device busy")];
         CallSetMessageHandler (FnPtr 9);
         CallJackErrorHandler (Printf.lit "cannot connect")] /\
    ~ In NULL (callees tr) /\
    length (callees tr) =
      length (filter is_adapter_call
        [CallJackInfoHandler (Printf.lit "client registered");
         CallAlsaErrorHandler (stack_of "x") pcm_c 2565 snd_pcm_open_noupdate (-16)
           (Printf.lit "failed: %s") [VaStr (Printf.lit "device busy")];
         CallSetMessageHandler (FnPtr 9);
         CallJackErrorHandler (Printf.lit "cannot connect")]).
Proof.
  split; [reflexivity|].
  apply (registered_adapters_call_stored_function Printf.format 7
           [CallJackInfoHandler (Printf.lit "client registered");
            CallAlsaErrorHandler (stack_of "x") pcm_c 2565 snd_pcm_open_noupdate
              (-16) (Printf.lit "failed: %s") [VaStr (Printf.lit "device busy")];
            CallSetMessageHandler (FnPtr 9);
            CallJackErrorHandler (Printf.lit "cannot connect")]
           bridge_init).
  reflexivity.
Defined.

(** The callbacks called in that run: 7 twice, then 9. *)
Example callees_of_a_run :
  stored_at (FnPtr 7)
    [CallJackInfoHandler (Printf.lit "client registered");
     CallAlsaErrorHandler (stack_of "x") pcm_c 2565 snd_pcm_open_noupdate (-16)
       (Printf.lit "failed: %s") [VaStr (Printf.lit "device busy")];
     CallSetMessageHandler (FnPtr 9);
     CallJackErrorHandler (Printf.lit "cannot connect")]
  = [FnPtr 7; FnPtr 7; FnPtr 9].
Proof. reflexivity. Qed.

(** C8 as the specification words it fails: a call of
    [set_message_handler] alone is not enough, since the callback passed
    may be the null pointer; each adapter then calls through it. *)
Lemma null_registration_counterexample :
  run_calls Printf.format
    [CallSetMessageHandler NULL;
     CallJackInfoHandler (Printf.lit "client registered")] bridge_init
  = Crash NullCall
      [EvStoreCallback NULL;
       EvSetAlsaHandler alsa_error_handler_ptr;
       EvSetJackInfo jack_info_handler_ptr;
       EvSetJackError jack_error_handler_ptr] /\
  run_calls Printf.format
    [CallSetMessageHandler NULL;
     CallJackErrorHandler (Printf.lit "cannot connect")] bridge_init
  = Crash NullCall
      [EvStoreCallback NULL;
       EvSetAlsaHandler alsa_error_handler_ptr;
       EvSetJackInfo jack_info_handler_ptr;
       EvSetJackError jack_error_handler_ptr] /\
  run_calls Printf.format
    [CallSetMessageHandler NULL;
     CallAlsaErrorHandler (stack_of "x") pcm_c 2565 snd_pcm_open_noupdate (-16)
       (Printf.lit "failed: %s") [VaStr (Printf.lit "device busy")]] bridge_init
  = Crash NullCall
      [EvStoreCallback NULL;
       EvSetAlsaHandler alsa_error_handler_ptr;
       EvSetJackInfo jack_info_handler_ptr;
       EvSetJackError jack_error_handler_ptr].
Proof. repeat split; vm_compute; reflexivity. Qed.

(** ** What the callback can ever receive *)

(** C10: in every run of every sequence of calls, from every state, each
    triple passed to the callback has severity 2 or 3 and one of the two
    literal tags. *)
Theorem forwarded_severity_and_tag_invariant :
  forall (vformat : list byte -> va_list -> list byte)
         (cs : list call) (st : bridge),
    Forall (fun t : Z * string * list byte =>
              (fst (fst t) = 2 \/ fst (fst t) = 3) /\
              (snd (fst t) = "yotredash::alsa"%string \/
               snd (fst t) = "yotredash::jack"%string))
           (forwarded (trace_of (run_calls vformat cs st))).
Proof.
  intros vformat cs. induction cs as [|c cs IH]; intros st.
  - simpl. constructor.
  - simpl run_calls. rewrite trace_of_bind.
    pose proof (run_call_forwarded vformat c st) as Hc.
    destruct (run_call vformat c st) as [[] st1 tr1|why tr1]; simpl in Hc.
    + rewrite forwarded_app. apply Forall_app. split; [exact Hc|apply IH].
    + exact Hc.
Qed.

(** ** Further properties of the bridge *)

Lemma forwarded_callees_length (tr : list event) :
  length (forwarded tr) = length (callees tr).
Proof.
  induction tr as [|e tr IH]; [reflexivity|].
  unfold forwarded, callees in *. simpl.
  rewrite !length_app, IH. destruct e; reflexivity.
Qed.

Lemma firstn_skipn_text (n : nat) (l : list byte) :
  l = firstn n l ++ skipn n l.
Proof. symmetry. apply firstn_skipn. Qed.

Lemma firstn_no_nul (n : nat) (l : list byte) :
  ~ In NUL l -> ~ In NUL (firstn n l).
Proof.
  intros H Hin. apply H.
  rewrite (firstn_skipn_text n l). apply in_or_app. left. exact Hin.
Qed.

(** X1: the law of truncation, for renderings of every length.  With a
    callback stored, the sound-device adapter forwards one triple whose
    text is a prefix of the rendered text: what is lost is exactly the
    rendered text from its 1023rd byte on.  The text has
    [min 1022 (length of the rendered text)] bytes and holds no NUL. *)
Theorem alsa_forwarded_text_law :
  forall (vformat : list byte -> va_list -> list byte) (stack : nat -> byte)
         (file : list byte) (line : Z) (function : list byte) (err : Z)
         (fmt : list byte) (ap : va_list) (st : bridge) (f : positive),
    rust_log st = FnPtr f ->
    exists text : list byte,
      forwarded (trace_of
        (alsa_error_handler vformat stack file line function err fmt ap st))
        = [(3, alsa_tag, text)] /\
      c_str (vformat fmt ap) = text ++ skipn 1022 (c_str (vformat fmt ap)) /\
      length text = Nat.min 1022 (length (c_str (vformat fmt ap))) /\
      ~ In NUL text.
Proof.
  intros vformat stack file line function err fmt ap st f Hf.
  exists (firstn 1022 (c_str (vformat fmt ap))).
  rewrite alsa_error_handler_run, call_rust_log_run, Hf.
  unfold trace_of, forwarded, flat_map, forwarded_of.
  rewrite alsa_msg_c_str.
  split; [reflexivity|].
  split; [apply firstn_skipn_text|].
  split; [apply length_firstn|].
  apply firstn_no_nul, c_str_no_nul.
Qed.

(** A rendering with a NUL inside, from [%c] applied to 0: the text
    forwarded stops before it. *)
Lemma alsa_forwarded_text_law_witness :
  rust_log (registered_with 7) = FnPtr 7 /\
  exists text : list byte,
    forwarded (trace_of
      (alsa_error_handler Printf.format (stack_of "x") pcm_c 2565
         snd_pcm_open_noupdate (-16) (Printf.lit "ab%cde") [VaInt 0]
         (registered_with 7)))
      = [(3, alsa_tag, text)] /\
    c_str (Printf.format (Printf.lit "ab%cde") [VaInt 0])
      = text ++ skipn 1022 (c_str (Printf.format (Printf.lit "ab%cde") [VaInt 0])) /\
    length text
      = Nat.min 1022 (length (c_str (Printf.format (Printf.lit "ab%cde") [VaInt 0]))) /\
    ~ In NUL text.
Proof.
  split; [reflexivity|].
  apply (alsa_forwarded_text_law Printf.format (stack_of "x") pcm_c 2565
           snd_pcm_open_noupdate (-16) (Printf.lit "ab%cde") [VaInt 0]
           (registered_with 7) 7).
  reflexivity.
Defined.

Example alsa_embedded_nul :
  Printf.format (Printf.lit "ab%cde") [VaInt 0]
    = ["a"%byte; "b"%byte; NUL; "d"%byte; "e"%byte] /\
  forwarded (trace_of
    (alsa_error_handler Printf.format (stack_of "x") pcm_c 2565
       snd_pcm_open_noupdate (-16) (Printf.lit "ab%cde") [VaInt 0]
       (registered_with 7)))
  = [(3, alsa_tag, list_byte_of_string "ab")].
Proof. split; vm_compute; reflexivity. Qed.

Section SequenceFacts.

Variable vformat : list byte -> va_list -> list byte.

(** The run of one adapter call, by the contents of [rust_log]. *)
Lemma adapter_call_cases (c : call) (st : bridge) :
  is_adapter_call c = true ->
  exists (sev : Z) (tag : string) (msg : list byte),
    run_call vformat c st =
    match rust_log st with
    | NULL => Crash NullCall []
    | FnPtr f => Done tt st [EvLog f sev tag msg]
    end.
Proof.
  intros Hc. destruct c; try discriminate; simpl run_call.
  - do 3 eexists. rewrite alsa_error_handler_run. apply call_rust_log_run.
  - do 3 eexists. unfold jack_info_handler. apply call_rust_log_run.
  - do 3 eexists. unfold jack_error_handler. apply call_rust_log_run.
Qed.

Lemma run_calls_complete (cs : list call) :
  forall st : bridge,
    ~ In NULL (stored_at (rust_log st) cs) ->
    exists (st' : bridge) (tr : list event),
      run_calls vformat cs st = Done tt st' tr /\
      callees tr = stored_at (rust_log st) cs.
Proof.
  induction cs as [|c cs IH]; intros st Hnn.
  - exists st, []. split; reflexivity.
  - destruct (is_adapter_call c) eqn:Ha.
    + assert (Hs : stored_at (rust_log st) (c :: cs)
                   = rust_log st :: stored_at (rust_log st) cs)
        by (destruct c; try discriminate; reflexivity).
      rewrite Hs in *. simpl in Hnn.
      destruct (rust_log st) as [|f] eqn:Hf; [tauto|].
      destruct (adapter_call_run vformat c st f Ha Hf) as [tr1 [Hrun Hcal]].
      destruct (IH st) as [st' [tr2 [Hrest Hcal2]]].
      { rewrite Hf. tauto. }
      exists st', (tr1 ++ tr2).
      simpl run_calls. unfold bind. rewrite Hrun, Hrest.
      split; [reflexivity|].
      rewrite callees_app, Hcal, Hcal2, Hf. reflexivity.
    + destruct c as [cb| | |]; try discriminate.
      simpl stored_at in *.
      destruct (IH (mkBridge cb alsa_error_handler_ptr
                      jack_info_handler_ptr jack_error_handler_ptr) Hnn)
        as [st' [tr2 [Hrest Hcal2]]].
      eexists st', _.
      simpl run_calls. unfold bind.
      rewrite set_message_handler_run, Hrest.
      split; [reflexivity|].
      rewrite callees_app, Hcal2. reflexivity.
Qed.

Lemma run_calls_null_call (cs : list call) :
  forall st : bridge,
    In NULL (stored_at (rust_log st) cs) ->
    exists (tr : list event) (later : list rust_callback),
      run_calls vformat cs st = Crash NullCall tr /\
      ~ In NULL (callees tr) /\
      stored_at (rust_log st) cs = callees tr ++ NULL :: later.
Proof.
  induction cs as [|c cs IH]; intros st Hin; [destruct Hin|].
  destruct (is_adapter_call c) eqn:Ha.
  - assert (Hs : stored_at (rust_log st) (c :: cs)
                 = rust_log st :: stored_at (rust_log st) cs)
      by (destruct c; try discriminate; reflexivity).
    rewrite Hs in *.
    destruct (adapter_call_cases c st Ha) as [sev [tag [msg Hrun]]].
    simpl run_calls. unfold bind. rewrite Hrun.
    destruct (rust_log st) as [|f] eqn:Hf.
    + exists [], (stored_at NULL cs).
      split; [reflexivity|]. split; [simpl; tauto|reflexivity].
    + destruct Hin as [Hin|Hin]; [discriminate|].
      destruct (IH st) as [tr2 [later [Hrest [Hnn Hsplit]]]];
        [rewrite Hf; exact Hin|].
      rewrite Hrest. rewrite Hf in Hsplit.
      eexists _, later. split; [reflexivity|].
      rewrite callees_app. split.
      * intros H. apply in_app_or in H as [H|H].
        -- simpl in H. destruct H as [H|H]; [discriminate|exact H].
        -- exact (Hnn H).
      * rewrite Hsplit. reflexivity.
  - destruct c as [cb| | |]; try discriminate.
    simpl stored_at in *.
    destruct (IH (mkBridge cb alsa_error_handler_ptr
                    jack_info_handler_ptr jack_error_handler_ptr) Hin)
      as [tr2 [later [Hrest [Hnn Hsplit]]]].
    simpl run_calls. unfold bind.
    rewrite set_message_handler_run, Hrest.
    eexists _, later. split; [reflexivity|].
    rewrite callees_app. split; [exact Hnn|exact Hsplit].
Qed.

Lemma adapter_calls_run (cs : list call) :
  forall st : bridge,
    forallb is_adapter_call cs = true ->
    match run_calls vformat cs st with
    | Done _ st' _ => st' = st
    | Crash why _ => why = NullCall
    end /\
    Forall (fun e => exists f sev tag msg, e = EvLog f sev tag msg)
           (trace_of (run_calls vformat cs st)).
Proof.
  induction cs as [|c cs IH]; intros st Hall.
  - split; [reflexivity|constructor].
  - simpl in Hall. apply andb_prop in Hall as [Hc Hcs].
    destruct (adapter_call_cases c st Hc) as [sev [tag [msg Hrun]]].
    destruct (IH st Hcs) as [Hst Htr].
    simpl run_calls. unfold bind. rewrite Hrun.
    destruct (rust_log st) as [|f].
    + split; [reflexivity|constructor].
    + destruct (run_calls vformat cs st) as [[] st' tr|why tr];
        simpl in *; (split; [exact Hst|]);
        (constructor; [do 4 eexists; reflexivity|exact Htr]).
Qed.

End SequenceFacts.

(** X2: a sequence of calls returns whenever [rust_log] holds a function
    at each of its adapter calls, from every starting state and also
    when a null registration occurs that a later one replaces in time.
    Each adapter call then calls, once, the callback stored at that
    moment: as many triples are forwarded as adapters were called. *)
Theorem calls_return_when_callback_present :
  forall (vformat : list byte -> va_list -> list byte)
         (cs : list call) (st : bridge),
    ~ In NULL (stored_at (rust_log st) cs) ->
    exists (st' : bridge) (tr : list event),
      run_calls vformat cs st = Done tt st' tr /\
      callees tr = stored_at (rust_log st) cs /\
      length (forwarded tr) = length (filter is_adapter_call cs).
Proof.
  intros vformat cs st Hnn.
  destruct (run_calls_complete vformat cs st Hnn) as [st' [tr [Hrun Hcal]]].
  exists st', tr. split; [exact Hrun|]. split; [exact Hcal|].
  rewrite forwarded_callees_length, Hcal. apply stored_at_length.
Qed.

Lemma calls_return_when_callback_present_witness :
  ~ In NULL
      (stored_at (rust_log bridge_init)
         [CallSetMessageHandler NULL;
          CallSetMessageHandler (FnPtr 7);
          CallJackInfoHandler (Printf.lit "client registered");
          CallAlsaErrorHandler (stack_of "x") conf_c 1872 snd_config_load (-22)
            (Printf.lit "line %d: %s") [VaInt 12; VaStr (Printf.lit "bad value")]]) /\
  exists (st' : bridge) (tr : list event),
    run_calls Printf.format
      [CallSetMessageHandler NULL;
       CallSetMessageHandler (FnPtr 7);
       CallJackInfoHandler (Printf.lit "client registered");
       CallAlsaErrorHandler (stack_of "x") conf_c 1872 snd_config_load (-22)
         (Printf.lit "line %d: %s") [VaInt 12; VaStr (Printf.lit "bad value")]]
      bridge_init = Done tt st' tr /\
    callees tr =
      stored_at (rust_log bridge_init)
        [CallSetMessageHandler NULL;
         CallSetMessageHandler (FnPtr 7);
         CallJackInfoHandler (Printf.lit "client registered");
         CallAlsaErrorHandler (stack_of "x") conf_c 1872 snd_config_load (-22)
           (Printf.lit "line %d: %s") [VaInt 12; VaStr (Printf.lit "bad value")]] /\
    length (forwarded tr) =
      length (filter is_adapter_call
        [CallSetMessageHandler NULL;
         CallSetMessageHandler (FnPtr 7);
         CallJackInfoHandler (Printf.lit "client registered");
         CallAlsaErrorHandler (stack_of "x") conf_c 1872 snd_config_load (-22)
           (Printf.lit "line %d: %s") [VaInt 12; VaStr (Printf.lit "bad value")]]).
Proof.
  assert (H : ~ In NULL [FnPtr 7; FnPtr 7]).
  { simpl. intros [H|[H|H]]; [discriminate H|discriminate H|exact H]. }
  split; [exact H|].
  apply (calls_return_when_callback_present Printf.format
           [CallSetMessageHandler NULL;
            CallSetMessageHandler (FnPtr 7);
            CallJackInfoHandler (Printf.lit "client registered");
            CallAlsaErrorHandler (stack_of "x") conf_c 1872 snd_config_load (-22)
              (Printf.lit "line %d: %s")
              [VaInt 12; VaStr (Printf.lit "bad value")]]
           bridge_init).
  exact H.
Defined.

(** X3: when [rust_log] is null at some adapter call of a sequence, the
    run stops there with a call through the null pointer: the adapter
    calls before it were forwarded to the functions stored at their
    time, and nothing after it runs. *)
Theorem calls_stop_at_first_null_callback :
  forall (vformat : list byte -> va_list -> list byte)
         (cs : list call) (st : bridge),
    In NULL (stored_at (rust_log st) cs) ->
    exists (tr : list event) (later : list rust_callback),
      run_calls vformat cs st = Crash NullCall tr /\
      ~ In NULL (callees tr) /\
      stored_at (rust_log st) cs = callees tr ++ NULL :: later.
Proof.
  intros vformat cs st Hin. apply run_calls_null_call. exact Hin.
Qed.

Lemma calls_stop_at_first_null_callback_witness :
  In NULL
    (stored_at (rust_log (registered_with 7))
       [CallJackInfoHandler (Printf.lit "client registered");
        CallSetMessageHandler NULL;
        CallJackErrorHandler (Printf.lit "cannot connect");
        CallSetMessageHandler (FnPtr 9);
        CallJackInfoHandler (Printf.lit "never delivered")]) /\
  exists (tr : list event) (later : list rust_callback),
    run_calls Printf.format
      [CallJackInfoHandler (Printf.lit "client registered");
       CallSetMessageHandler NULL;
       CallJackErrorHandler (Printf.lit "cannot connect");
       CallSetMessageHandler (FnPtr 9);
       CallJackInfoHandler (Printf.lit "never delivered")]
      (registered_with 7) = Crash NullCall tr /\
    ~ In NULL (callees tr) /\
    stored_at (rust_log (registered_with 7))
      [CallJackInfoHandler (Printf.lit "client registered");
       CallSetMessageHandler NULL;
       CallJackErrorHandler (Printf.lit "cannot connect");
       CallSetMessageHandler (FnPtr 9);
       CallJackInfoHandler (Printf.lit "never delivered")]
    = callees tr ++ NULL :: later.
Proof.
  assert (H : In NULL [FnPtr 7; NULL; FnPtr 9]).
  { simpl. right. left. reflexivity. }
  split; [exact H|].
  apply (calls_stop_at_first_null_callback Printf.format
           [CallJackInfoHandler (Printf.lit "client registered");
            CallSetMessageHandler NULL;
            CallJackErrorHandler (Printf.lit "cannot connect");
            CallSetMessageHandler (FnPtr 9);
            CallJackInfoHandler (Printf.lit "never delivered")]
           (registered_with 7)).
  exact H.
Defined.

(** X4: the adapters never write the globals and have no effect but the
    calls of the callback.  A sequence of adapter calls (no registration
    among them) that returns leaves [rust_log] and the three handler
    slots as they were; one that does not return stopped at a call through
    the null pointer; its trace holds calls of the callback only. *)
Theorem adapter_calls_keep_globals :
  forall (vformat : list byte -> va_list -> list byte)
         (cs : list call) (st : bridge),
    forallb is_adapter_call cs = true ->
    match run_calls vformat cs st with
    | Done _ st' _ => st' = st
    | Crash why _ => why = NullCall
    end /\
    Forall (fun e => exists f sev tag msg, e = EvLog f sev tag msg)
           (trace_of (run_calls vformat cs st)).
Proof.
  intros vformat cs st Hall. apply adapter_calls_run. exact Hall.
Qed.

Lemma adapter_calls_keep_globals_witness :
  forallb is_adapter_call
    [CallJackInfoHandler (Printf.lit "client registered");
     CallAlsaErrorHandler (stack_of "x") pcm_c 2565 snd_pcm_open_noupdate (-16)
       (letters 2000) [];
     CallJackErrorHandler (Printf.lit "cannot connect")] = true /\
  match run_calls Printf.format
          [CallJackInfoHandler (Printf.lit "client registered");
           CallAlsaErrorHandler (stack_of "x") pcm_c 2565 snd_pcm_open_noupdate
             (-16) (letters 2000) [];
           CallJackErrorHandler (Printf.lit "cannot connect")]
          (registered_with 7) with
  | Done _ st' _ => st' = registered_with 7
  | Crash why _ => why = NullCall
  end /\
  Forall (fun e => exists f sev tag msg, e = EvLog f sev tag msg)
    (trace_of
       (run_calls Printf.format
          [CallJackInfoHandler (Printf.lit "client registered");
           CallAlsaErrorHandler (stack_of "x") pcm_c 2565 snd_pcm_open_noupdate
             (-16) (letters 2000) [];
           CallJackErrorHandler (Printf.lit "cannot connect")]
          (registered_with 7))).
Proof.
  split; [reflexivity|].
  apply (adapter_calls_keep_globals Printf.format
           [CallJackInfoHandler (Printf.lit "client registered");
            CallAlsaErrorHandler (stack_of "x") pcm_c 2565 snd_pcm_open_noupdate
              (-16) (letters 2000) [];
            CallJackErrorHandler (Printf.lit "cannot connect")]
           (registered_with 7)).
  reflexivity.
Defined.

(** X5: registration followed by an adapter call, from every state, the
    state at program start among them.  After [set_message_handler] with
    a function [f], each adapter returns after one call of [f]: the
    sound-device adapter with severity 3, its tag and the first 1022
    bytes of the rendered text; the audio-server adapters with severity
    2 and 3, their tag and the message they were given. *)
Theorem register_then_adapter_forwards :
  forall (vformat : list byte -> va_list -> list byte) (f : positive)
         (st : bridge) (stack : nat -> byte)
         (file : list byte) (line : Z) (function : list byte) (err : Z)
         (fmt : list byte) (ap : va_list) (msg : list byte),
    let st' := mkBridge (FnPtr f) alsa_error_handler_ptr
                 jack_info_handler_ptr jack_error_handler_ptr in
    let installs := [EvStoreCallback (FnPtr f);
                     EvSetAlsaHandler alsa_error_handler_ptr;
                     EvSetJackInfo jack_info_handler_ptr;
                     EvSetJackError jack_error_handler_ptr] in
    (exists buf : list byte,
       (set_message_handler (FnPtr f) ;;
        alsa_error_handler vformat stack file line function err fmt ap) st
         = Done tt st' (installs ++ [EvLog f 3 alsa_tag buf]) /\
       c_str buf = firstn 1022 (c_str (vformat fmt ap))) /\
    (set_message_handler (FnPtr f) ;; jack_info_handler msg) st
      = Done tt st' (installs ++ [EvLog f 2 jack_tag msg]) /\
    (set_message_handler (FnPtr f) ;; jack_error_handler msg) st
      = Done tt st' (installs ++ [EvLog f 3 jack_tag msg]).
Proof.
  intros vformat f st stack file line function err fmt ap msg st' installs.
  split; [|split].
  - exists (alsa_msg stack (vformat fmt ap)).
    split; [|apply alsa_msg_c_str].
    unfold bind. rewrite set_message_handler_run.
    rewrite alsa_error_handler_run, call_rust_log_run. reflexivity.
  - unfold bind. rewrite set_message_handler_run.
    unfold jack_info_handler. rewrite call_rust_log_run. reflexivity.
  - unfold bind. rewrite set_message_handler_run.
    unfold jack_error_handler. rewrite call_rust_log_run. reflexivity.
Qed.
